(** * A shallow embedding of [app.py]: the flashcard / quiz generation endpoint

    The program is one FastAPI module.  At import time it loads the provider
    credential, then it serves [POST /generate]: the request is validated,
    a system prompt is selected and a user prompt rendered, the provider is
    called, and its answer is parsed as JSON.

    Python [str] values are modelled as [string] holding their UTF-8 bytes,
    [int] as [Z], exceptions as an inductive type and a raising computation
    as a [result].  The outbound provider call is the only effect of the
    handler; it is recorded in a trace. *)

From Stdlib Require Import ZArith Ascii String List Bool Lia.
From Stdlib Require Import DecimalString DecimalFacts DecimalZ.
From stdpp Require Import base strings gmap.

Local Open Scope Z_scope.
Local Open Scope string_scope.
Local Open Scope list_scope.
Local Set Warnings "-register-all".

(** ** Python values the module relies on *)

Module Py.

(** The exception classes that can travel through the handler.  All of them
    derive from [Exception].  [JSONDecodeError] derives from [ValueError];
    [ProviderError] stands for whatever the provider client raises
    (authentication, network, rate limit), with its class name. *)
Inductive exn : Type :=
| HTTPException (status_code : Z) (detail : string)
| JSONDecodeError (msg : string)
| ValueError (msg : string)
| RuntimeError (msg : string)
| IndexError (msg : string)
| AttributeError (msg : string)
| RecursionError (msg : string)
| ProviderError (cls : string) (msg : string).

(** A computation that returns a value or raises. *)
Inductive result (A : Type) : Type :=
| Return (a : A)
| Raise (e : exn).
Arguments Return {A} a.
Arguments Raise {A} e.

(** [str(n)] for an [int]: decimal digits, a leading minus sign when negative. *)
Definition str_int (n : Z) : string := NilZero.string_of_int (Z.to_int n).

(** [str(e)].  Starlette's [HTTPException.__str__] is
    [f"{self.status_code}: {self.detail}"]; the other classes are built from
    one message argument, and print it. *)
Definition str (e : exn) : string :=
  match e with
  | HTTPException status_code detail => str_int status_code +:+ ": " +:+ detail
  | JSONDecodeError msg => msg
  | ValueError msg => msg
  | RuntimeError msg => msg
  | IndexError msg => msg
  | AttributeError msg => msg
  | RecursionError msg => msg
  | ProviderError _ msg => msg
  end.

(** [x in xs] on strings. *)
Definition str_in (x : string) (xs : list string) : bool :=
  existsb (String.eqb x) xs.

(** *** [str.strip()]

    [strip] with no argument removes the leading and trailing characters for
    which [Py_UNICODE_ISSPACE] holds.  The code points are read from the
    UTF-8 bytes: one, two or three bytes make one white-space character (no
    white-space code point needs four). *)
Definition Py_UNICODE_ISSPACE (cp : N) : bool :=
  ((9 <=? cp) && (cp <=? 13) || (28 <=? cp) && (cp <=? 32)
   || (cp =? 133) || (cp =? 160) || (cp =? 5760)
   || (8192 <=? cp) && (cp <=? 8202)
   || (cp =? 8232) || (cp =? 8233) || (cp =? 8239) || (cp =? 8287)
   || (cp =? 12288))%N.

Definition is_continuation (b : N) : bool := ((128 <=? b) && (b <? 192))%N.

(** The code point of a one-, two- or three-byte UTF-8 sequence. *)
Definition codepoint1 (b0 : N) : option N :=
  if (b0 <? 128)%N then Some b0 else None.

Definition codepoint2 (b0 b1 : N) : option N :=
  if ((192 <=? b0) && (b0 <? 224))%N && is_continuation b1
  then Some ((b0 - 192) * 64 + (b1 - 128))%N else None.

Definition codepoint3 (b0 b1 b2 : N) : option N :=
  if ((224 <=? b0) && (b0 <? 240))%N && is_continuation b1 && is_continuation b2
  then Some ((b0 - 224) * 4096 + (b1 - 128) * 64 + (b2 - 128))%N else None.

Definition is_space (cp : option N) : bool :=
  match cp with
  | Some c => Py_UNICODE_ISSPACE c
  | None => false
  end.

(** Drop leading white space.  With [backwards] the bytes of [s] are in
    reverse order, so a character's last byte comes first. *)
Fixpoint drop_space (backwards : bool) (s : string) : string :=
  match s with
  | String a s1 =>
    let b0 := N_of_ascii a in
    if is_space (codepoint1 b0) then drop_space backwards s1
    else match s1 with
    | String a1 s2 =>
      let b1 := N_of_ascii a1 in
      if is_space (if backwards then codepoint2 b1 b0 else codepoint2 b0 b1)
      then drop_space backwards s2
      else match s2 with
      | String a2 s3 =>
        let b2 := N_of_ascii a2 in
        if is_space (if backwards then codepoint3 b2 b1 b0 else codepoint3 b0 b1 b2)
        then drop_space backwards s3
        else s
      | EmptyString => s
      end
    | EmptyString => s
    end
  | EmptyString => s
  end.

Definition lstrip (s : string) : string := drop_space false s.
Definition rstrip (s : string) : string := String.rev (drop_space true (String.rev s)).
Definition strip (s : string) : string := rstrip (lstrip s).

End Py.
Import Py.

(** ** The [json] module *)

Module Json.

(** What [json.loads] builds: [None], [bool], [int], [float], [str], [list]
    and [dict].  A [float] is kept as the literal it was read from; a [dict]
    as its items in insertion order, keys unique. *)
Inductive json : Type :=
| JNull
| JBool (b : bool)
| JInt (n : Z)
| JFloat (literal : string)
| JStr (s : string)
| JList (items : list json)
| JDict (items : list (string * json)).

(** [d[k] = v] *)
Fixpoint dict_set (k : string) (v : json) (d : list (string * json))
  : list (string * json) :=
  match d with
  | [] => [(k, v)]
  | (k', v') :: d' => if String.eqb k k' then (k', v) :: d' else (k', v') :: dict_set k v d'
  end.

(** *** A reference decoder

    [loads] follows the scanner of CPython's [json] module ([scan_once],
    [scanstring], the object and array loops, [match_number]) on the UTF-8
    bytes of the document.  Error messages carry no position.  [depth]
    bounds the nesting of arrays and objects as the interpreter's recursion
    limit does. *)

Definition err {A : Type} (msg : string) : result A := Raise (JSONDecodeError msg).

Definition is_ws (a : ascii) : bool :=
  let n := N_of_ascii a in ((n =? 32) || (n =? 9) || (n =? 10) || (n =? 13))%N.

Fixpoint skip_ws (s : string) : string :=
  match s with
  | String a s' => if is_ws a then skip_ws s' else s
  | EmptyString => s
  end.

Fixpoint strip_prefix (p s : string) : option string :=
  match p, s with
  | EmptyString, _ => Some s
  | String a p', String b s' => if Ascii.eqb a b then strip_prefix p' s' else None
  | String _ _, EmptyString => None
  end.

Definition is_digit (a : ascii) : bool :=
  let n := N_of_ascii a in ((48 <=? n) && (n <=? 57))%N.

Fixpoint take_digits (s : string) : string * string :=
  match s with
  | String a s' =>
    if is_digit a then let '(d, r) := take_digits s' in (String a d, r) else (EmptyString, s)
  | EmptyString => (EmptyString, s)
  end.

Fixpoint int_of_digits (acc : Z) (d : string) : Z :=
  match d with
  | String a d' => int_of_digits (10 * acc + (Z.of_N (N_of_ascii a) - 48)) d'
  | EmptyString => acc
  end.

(** [sys.get_int_max_str_digits()] *)
Definition int_max_str_digits : nat := 4300.

(** [match_number]: an optional minus sign; the integer part, a single zero
    or a non-zero digit followed by digits; an optional fraction, a point
    and at least one digit; an optional exponent, [e] or [E], an optional
    sign and at least one digit.  [None] when no number starts here.  A
    number with a fraction or an exponent is a [float], any other an [int]. *)
Definition match_number (s : string) : option (result json * string) :=
  let '(sign, s0) := match strip_prefix "-" s with
                     | Some r => ("-", r)
                     | None => (EmptyString, s)
                     end in
  let integer : option (string * string) :=
    match s0 with
    | String a s1 =>
      if Ascii.eqb a "0" then Some ("0", s1)
      else if is_digit a then Some (take_digits s0)
      else None
    | EmptyString => None
    end in
  match integer with
  | None => None
  | Some (digits, s1) =>
    let '(frac, s2) :=
      match s1 with
      | String a s1' =>
        if Ascii.eqb a "." then
          match take_digits s1' with
          | (EmptyString, _) => (EmptyString, s1)
          | (d, r) => (String a d, r)
          end
        else (EmptyString, s1)
      | EmptyString => (EmptyString, s1)
      end in
    let '(exp, s3) :=
      match s2 with
      | String a s2' =>
        if Ascii.eqb a "e" || Ascii.eqb a "E" then
          let '(sg, s2'') :=
            match s2' with
            | String b r => if Ascii.eqb b "+" || Ascii.eqb b "-"
                            then (String b EmptyString, r) else (EmptyString, s2')
            | EmptyString => (EmptyString, s2')
            end in
          match take_digits s2'' with
          | (EmptyString, _) => (EmptyString, s2)
          | (d, r) => (String a (sg +:+ d), r)
          end
        else (EmptyString, s2)
      | EmptyString => (EmptyString, s2)
      end in
    match frac, exp with
    | EmptyString, EmptyString =>
      if (int_max_str_digits <? String.length digits)%nat
      then Some (Raise (ValueError
                          ("Exceeds the limit (4300 digits) for integer string conversion: "
                           +:+ "value has " +:+ str_int (Z.of_nat (String.length digits))
                           +:+ " digits; use sys.set_int_max_str_digits() to increase the limit")),
                 s3)
      else Some (Return (JInt (if String.eqb sign "-" then - int_of_digits 0 digits
                               else int_of_digits 0 digits)), s3)
    | _, _ => Some (Return (JFloat (sign +:+ digits +:+ frac +:+ exp)), s3)
    end
  end.

Definition hex_digit (a : ascii) : option N :=
  let n := N_of_ascii a in
  if ((48 <=? n) && (n <=? 57))%N then Some (n - 48)%N
  else if ((65 <=? n) && (n <=? 70))%N then Some (n - 55)%N
  else if ((97 <=? n) && (n <=? 102))%N then Some (n - 87)%N
  else None.

(** The four hex digits of a [\uXXXX] escape. *)
Definition hex4 (s : string) : option (N * string) :=
  match s with
  | String a (String b (String c (String d r))) =>
    match hex_digit a, hex_digit b, hex_digit c, hex_digit d with
    | Some x, Some y, Some z, Some w => Some (x * 4096 + y * 256 + z * 16 + w, r)%N
    | _, _, _, _ => None
    end
  | _ => None
  end.

Definition byte (n : N) : ascii := ascii_of_N n.

(** The UTF-8 bytes of a code point (a lone surrogate takes three). *)
Definition utf8 (cp : N) : string :=
  (if cp <? 128 then String (byte cp) EmptyString
   else if cp <? 2048 then
     String (byte (192 + cp / 64)) (String (byte (128 + cp mod 64)) EmptyString)
   else if cp <? 65536 then
     String (byte (224 + cp / 4096))
       (String (byte (128 + (cp / 64) mod 64)) (String (byte (128 + cp mod 64)) EmptyString))
   else
     String (byte (240 + cp / 262144))
       (String (byte (128 + (cp / 4096) mod 64))
          (String (byte (128 + (cp / 64) mod 64)) (String (byte (128 + cp mod 64)) EmptyString))))%N.

(** [BACKSLASH]: the one-character escapes. *)
Definition backslash (a : ascii) : option ascii :=
  let n := N_of_ascii a in
  (if n =? 34 then Some a            (* quote *)
   else if n =? 92 then Some a       (* backslash *)
   else if n =? 47 then Some a       (* slash *)
   else if n =? 98 then Some (byte 8)
   else if n =? 102 then Some (byte 12)
   else if n =? 110 then Some (byte 10)
   else if n =? 114 then Some (byte 13)
   else if n =? 116 then Some (byte 9)
   else None)%N.

(** [scanstring(s, end, strict=True)], after the opening quote. *)
Fixpoint scanstring (fuel : nat) (s : string) : result (string * string) :=
  match fuel with
  | O => err "Unterminated string starting at"
  | S fuel' =>
    match s with
    | EmptyString => err "Unterminated string starting at"
    | String a s1 =>
      let n := N_of_ascii a in
      if (n =? 34)%N then Return (EmptyString, s1)
      else if (n <? 32)%N then err "Invalid control character at"
      else if (n =? 92)%N then
        match s1 with
        | EmptyString => err "Unterminated string starting at"
        | String e s2 =>
          if (N_of_ascii e =? 117)%N then
            match hex4 s2 with
            | None => err "Invalid \uXXXX escape"
            | Some (uni, s3) =>
              let '(cp, s4) :=
                if ((55296 <=? uni) && (uni <=? 56319))%N then
                  match strip_prefix "\u" s3 with
                  | Some s3' =>
                    match hex4 s3' with
                    | Some (uni2, r) =>
                      if ((56320 <=? uni2) && (uni2 <=? 57343))%N
                      then (65536 + ((uni - 55296) * 1024 + (uni2 - 56320)), r)%N
                      else (uni, s3)
                    | None => (uni, s3)
                    end
                  | None => (uni, s3)
                  end
                else (uni, s3) in
              match scanstring fuel' s4 with
              | Return (chunk, r) => Return (utf8 cp +:+ chunk, r)
              | Raise x => Raise x
              end
            end
          else
            match backslash e with
            | None => err "Invalid \escape"
            | Some c =>
              match scanstring fuel' s2 with
              | Return (chunk, r) => Return (String c chunk, r)
              | Raise x => Raise x
              end
            end
        end
      else
        match scanstring fuel' s1 with
        | Return (chunk, r) => Return (String a chunk, r)
        | Raise x => Raise x
        end
    end
  end.

Definition expecting_value {A : Type} : result A := err "Expecting value".

Definition recursion_error {A : Type} (what : string) : result A :=
  Raise (RecursionError ("maximum recursion depth exceeded while decoding a JSON "
                         +:+ what +:+ " from a unicode string")).

(** [scan_once]: one JSON term at the head of [s], and what follows it. *)
Fixpoint scan_once (depth : nat) (s : string) : result (json * string) :=
  match s with
  | EmptyString => expecting_value
  | String a s1 =>
    let n := N_of_ascii a in
    if (n =? 34)%N then
      match scanstring (String.length s1) s1 with
      | Return (str, r) => Return (JStr str, r)
      | Raise x => Raise x
      end
    else if (n =? 123)%N then
      (* an object: the opening brace is read *)
      match depth with
      | O => recursion_error "object"
      | S depth' =>
        let fix members (fuel : nat) (pairs : list (string * json)) (s : string)
          : result (json * string) :=
          match fuel, s with
          | S fuel', String q s' =>
            if (N_of_ascii q =? 34)%N then
              match scanstring (String.length s') s' with
              | Raise x => Raise x
              | Return (key, r) =>
                match skip_ws r with
                | String c r1 =>
                  if (N_of_ascii c =? 58)%N then
                    match scan_once depth' (skip_ws r1) with
                    | Raise x => Raise x
                    | Return (value, r2) =>
                      let pairs' := dict_set key value pairs in
                      match skip_ws r2 with
                      | String d r3 =>
                        if (N_of_ascii d =? 125)%N then Return (JDict pairs', r3)
                        else if (N_of_ascii d =? 44)%N then members fuel' pairs' (skip_ws r3)
                        else err "Expecting ',' delimiter"
                      | EmptyString => err "Expecting ',' delimiter"
                      end
                    end
                  else err "Expecting ':' delimiter"
                | EmptyString => err "Expecting ':' delimiter"
                end
              end
            else err "Expecting property name enclosed in double quotes"
          | _, _ => err "Expecting property name enclosed in double quotes"
          end in
        match skip_ws s1 with
        | String c r =>
          if (N_of_ascii c =? 125)%N then Return (JDict [], r)
          else members (String.length s1) [] (skip_ws s1)
        | EmptyString => members (String.length s1) [] EmptyString
        end
      end
    else if (n =? 91)%N then
      (* an array: the opening bracket is read *)
      match depth with
      | O => recursion_error "array"
      | S depth' =>
        let fix elements (fuel : nat) (values : list json) (s : string)
          : result (json * string) :=
          match fuel with
          | S fuel' =>
            match scan_once depth' s with
            | Raise x => Raise x
            | Return (value, r) =>
              let values' := values ++ [value] in
              match skip_ws r with
              | String d r1 =>
                if (N_of_ascii d =? 93)%N then Return (JList values', r1)
                else if (N_of_ascii d =? 44)%N then elements fuel' values' (skip_ws r1)
                else err "Expecting ',' delimiter"
              | EmptyString => err "Expecting ',' delimiter"
              end
            end
          | O => expecting_value
          end in
        match skip_ws s1 with
        | String c r =>
          if (N_of_ascii c =? 93)%N then Return (JList [], r)
          else elements (String.length s1) [] (skip_ws s1)
        | EmptyString => elements (S (String.length s1)) [] EmptyString
        end
      end
    else
      match strip_prefix "null" s, strip_prefix "true" s, strip_prefix "false" s with
      | Some r, _, _ => Return (JNull, r)
      | _, Some r, _ => Return (JBool true, r)
      | _, _, Some r => Return (JBool false, r)
      | None, None, None =>
        match match_number s with
        | Some (Return v, r) => Return (v, r)
        | Some (Raise x, _) => Raise x
        | None =>
          match strip_prefix "NaN" s, strip_prefix "Infinity" s, strip_prefix "-Infinity" s with
          | Some r, _, _ => Return (JFloat "NaN", r)
          | _, Some r, _ => Return (JFloat "Infinity", r)
          | _, _, Some r => Return (JFloat "-Infinity", r)
          | None, None, None => expecting_value
          end
        end
      end
  end.

(** The nesting that the recursion limit leaves to the decoder. *)
Definition recursion_limit : nat := 1000.

(** U+FEFF *)
Definition BOM : string := String (byte 239) (String (byte 187) (String (byte 191) EmptyString)).

(** [json.loads(s)] for a [str]. *)
Definition loads (s : string) : result json :=
  match strip_prefix BOM s with
  | Some _ => err "Unexpected UTF-8 BOM (decode using utf-8-sig)"
  | None =>
    match scan_once recursion_limit (skip_ws s) with
    | Raise x => Raise x
    | Return (obj, r) =>
      match skip_ws r with
      | EmptyString => Return obj
      | String _ _ => err "Extra data"
      end
    end
  end.

End Json.
Import Json.

(** ** Effects

    What the module does to the outside world, in the order it happens. *)
Inductive event : Type :=
| LoadDotenv
| Getenv (name : string)
| NewOpenAI (api_key : string)
| NewFastAPI
| AddRoute (method path : string)
| ChatCompletionsCreate (model : string) (messages : list (list (string * string))).

(** A computation that may raise and that appends to the trace of events. *)
Definition M (A : Type) : Type := list event -> result A * list event.

#[export] Instance M_ret : MRet M := fun A a tr => (Return a, tr).

#[export] Instance M_bind : MBind M := fun A B k m tr =>
  match m tr with
  | (Return a, tr') => k a tr'
  | (Raise e, tr') => (Raise e, tr')
  end.

Definition raise {A : Type} (e : exn) : M A := fun tr => (Raise e, tr).

Definition lift {A : Type} (r : result A) : M A := fun tr => (r, tr).

Definition emit (ev : event) : M unit := fun tr => (Return tt, tr ++ [ev]).

(** [try: body except Exception as e: handler(e)] *)
Definition try_except {A : Type} (body : M A) (handler : exn -> M A) : M A :=
  fun tr =>
    match body tr with
    | (Return a, tr') => (Return a, tr')
    | (Raise e, tr') => handler e tr'
    end.

(** ** The provider client *)

Module openai.

Record ChatCompletionMessage : Type := { content : option string }.
Record Choice : Type := { message : ChatCompletionMessage }.
Record ChatCompletion : Type := { choices : list Choice }.

End openai.

(** The provider: what [client.chat.completions.create(model=, messages=)]
    answers, or the exception it raises. *)
Definition provider : Type :=
  string -> list (list (string * string)) -> result openai.ChatCompletion.

(** ** Module constants of [app.py] *)

(** The double quote character, for the literals that contain it. *)
Definition dquote : string := String (ascii_of_nat 34) EmptyString.

(** [class FlashcardRequest(BaseModel)], once validated. *)
Record FlashcardRequest : Type := {
  topic : string;
  card_type : string;
  count : Z;
  language : string
}.

(* English System Prompts *)
Definition SYSTEM_PROMPT_EN : string :=
  "You are an expert educational content creator specializing in flashcards for students and lifelong learners. " +:+
  "Your task is to create high-quality flashcards that contain the most important, essential facts about a topic (no trivia), " +:+
  "clear and concise questions and answers that aid memory retention, and content useful for exams or real-life understanding. " +:+
  "Keep questions and answers short and focused (max 25 words). " +:+
  "Language level should be high school or university. " +:+
  "Return the flashcards as a valid JSON array with no extra text. " +:+
  "Each flashcard must have 'question' and 'answer' keys.".

Definition QUIZ_SYSTEM_PROMPT_EN : string :=
  "You are an expert educational content creator specializing in multiple-choice quizzes for students and lifelong learners. " +:+
  "Your task is to create high-quality multiple-choice questions that cover the most important, essential facts about a topic (no trivia). " +:+
  "Each question must have exactly 4 options and 1 correct answer. " +:+
  "The options must be plausible and relevant. " +:+
  "Language level should be high school or university. " +:+
  "Return the result as a valid JSON array with no extra text. " +:+
  "Each question must have 'question', 'options' (list of 4 strings), and 'correct_answer' (string) keys.".

(* Turkish System Prompts *)
Definition SYSTEM_PROMPT_TR : string :=
  "Sen öğrenciler ve yaşam boyu öğrenenler için flashcard oluşturma konusunda uzman bir eğitim içeriği yaratıcısısın. " +:+
  "Görevin bir konu hakkında en önemli, temel gerçekleri içeren (trivia değil), " +:+
  "hafızayı güçlendiren net ve özlü sorular ve cevaplar ve sınavlar veya gerçek yaşam anlayışı için yararlı içerik içeren " +:+
  "yüksek kaliteli flashcard'lar oluşturmaktır. " +:+
  "Soruları ve cevapları kısa ve odaklanmış tut (maksimum 25 kelime). " +:+
  "Dil seviyesi lise veya üniversite düzeyinde olmalı. " +:+
  "Flashcard'ları ekstra metin olmadan geçerli bir JSON dizisi olarak döndür. " +:+
  "Her flashcard'da 'question' ve 'answer' anahtarları bulunmalı.".

Definition QUIZ_SYSTEM_PROMPT_TR : string :=
  "Sen öğrenciler ve yaşam boyu öğrenenler için çoktan seçmeli sınavlar konusunda uzman bir eğitim içeriği yaratıcısısın. " +:+
  "Görevin bir konu hakkında en önemli, temel gerçekleri kapsayan (trivia değil) yüksek kaliteli çoktan seçmeli sorular oluşturmaktır. " +:+
  "Her soru tam olarak 4 seçeneğe ve 1 doğru cevaba sahip olmalı. " +:+
  "Seçenekler makul ve konuyla ilgili olmalı. " +:+
  "Dil seviyesi lise veya üniversite düzeyinde olmalı. " +:+
  "Sonucu ekstra metin olmadan geçerli bir JSON dizisi olarak döndür. " +:+
  "Her soruda 'question', 'options' (4 string'den oluşan liste), ve 'correct_answer' (string) anahtarları bulunmalı.".

(** ** Prompt selection and rendering *)

(** [get_system_prompt(card_type, language)] *)
Definition get_system_prompt (card_type language : string) : result string :=
  if String.eqb card_type "flashcard" then
    Return (if String.eqb language "tr" then SYSTEM_PROMPT_TR else SYSTEM_PROMPT_EN)
  else if String.eqb card_type "quiz" then
    Return (if String.eqb language "tr" then QUIZ_SYSTEM_PROMPT_TR else QUIZ_SYSTEM_PROMPT_EN)
  else
    Raise (ValueError "Invalid card_type").

(** [get_user_prompt(card_type, topic, count, language)]: four f-strings. *)
Definition get_user_prompt (card_type topic : string) (count : Z) (language : string)
  : string :=
  if String.eqb language "tr" then
    if String.eqb card_type "flashcard" then
      "'" +:+ topic +:+ "' konusu hakkında " +:+ str_int count +:+ " adet flashcard oluştur. " +:+
      "Sonucu geçerli bir JSON dizisi olarak döndür. " +:+
      "Her flashcard'da 'question' ve 'answer' anahtarları bulunmalı. " +:+
      "Örnek: [{" +:+ dquote +:+ "question" +:+ dquote +:+ ": " +:+ dquote +:+ "... nedir?"
        +:+ dquote +:+ ", " +:+ dquote +:+ "answer" +:+ dquote +:+ ": " +:+ dquote +:+ "..."
        +:+ dquote +:+ "}, ...]"
    else (* quiz *)
      "'" +:+ topic +:+ "' konusu hakkında " +:+ str_int count +:+ " adet çoktan seçmeli soru oluştur. " +:+
      "Sadece belirtilen geçerli JSON dizisini döndür."
  else (* English *)
    if String.eqb card_type "flashcard" then
      "Create " +:+ str_int count +:+ " flashcards about '" +:+ topic +:+ "'. " +:+
      "Return the result as a valid JSON array. " +:+
      "Each flashcard should have 'question' and 'answer' keys. " +:+
      "Example: [{" +:+ dquote +:+ "question" +:+ dquote +:+ ": " +:+ dquote +:+ "What is ...?"
        +:+ dquote +:+ ", " +:+ dquote +:+ "answer" +:+ dquote +:+ ": " +:+ dquote +:+ "..."
        +:+ dquote +:+ "}, ...]"
    else (* quiz *)
      "Create " +:+ str_int count +:+ " multiple-choice questions about '" +:+ topic +:+ "'. " +:+
      "Return only the valid JSON array as specified.".


(** ** The handler *)

(** [xs[0]] *)
Definition first {A : Type} (xs : list A) : result A :=
  match xs with
  | x :: _ => Return x
  | [] => Raise (IndexError "list index out of range")
  end.

(** [content.strip()], where [content] may be [None]. *)
Definition content_strip (content : option string) : result string :=
  match content with
  | Some s => Return (strip s)
  | None => Raise (AttributeError "'NoneType' object has no attribute 'strip'")
  end.

(** The [messages] argument of the provider call: two dictionaries. *)
Definition prompt_messages (system_prompt user_prompt : string)
  : list (list (string * string)) :=
  [ [("role", "system"); ("content", system_prompt)];
    [("role", "user"); ("content", user_prompt)] ].

Section Handler.

Variable json_loads : string -> result json.
Variable client : provider.

Definition chat_completions_create (model : string) (messages : list (list (string * string)))
  : M openai.ChatCompletion :=
  emit (ChatCompletionsCreate model messages) ;; lift (client model messages).

(** The [try] block of [generate_flashcard]. *)
Definition generate_flashcard_try (req : FlashcardRequest) : M json :=
  (* Validate card_type *)
  (if negb (str_in (card_type req) ["flashcard"; "quiz"])
   then raise (HTTPException 400 "Invalid card_type. Use 'flashcard' or 'quiz'.")
   else mret tt) ;;
  (* Get appropriate prompts based on language *)
  system_prompt ← lift (get_system_prompt (card_type req) (language req));
  let user_prompt := get_user_prompt (card_type req) (topic req) (count req) (language req) in
  (* ChatGPT API call *)
  response ← chat_completions_create "gpt-4" (prompt_messages system_prompt user_prompt);
  choice ← lift (first (openai.choices response));
  result_text ← lift (content_strip (openai.content (openai.message choice)));
  result_json ← try_except (lift (json_loads result_text))
                  (fun e => match e with
                            | JSONDecodeError _ =>
                              raise (HTTPException 500 "AI did not return valid JSON")
                            | _ => raise e
                            end);
  mret (JDict [("result", result_json)]).

(** [async def generate_flashcard(req)]: the [try] block under its
    [except Exception as e]. *)
Definition generate_flashcard (req : FlashcardRequest) : M json :=
  try_except (generate_flashcard_try req)
    (fun e => raise (HTTPException 500 (str e))).

End Handler.

(** ** The boundary: request validation and response rendering *)

(** Regular expressions, as far as [Field(pattern=...)] needs them.  The
    schema library searches the input for the pattern, with a regex engine
    in which [^] and [$] hold at the two ends of the input only (a line
    break before the end is no end). *)
Module Regex.

Inductive regex : Type :=
| Start
| End
| Lit (s : string)
| Alt (r1 r2 : regex)
| Seq (r1 r2 : regex).

(** [matches r at_start s k]: [r] matches a prefix of [s] and [k] accepts
    what is left; [at_start] tells whether [s] is the whole input. *)
Fixpoint matches (r : regex) (at_start : bool) (s : string) (k : bool -> string -> bool)
  : bool :=
  match r with
  | Start => at_start && k at_start s
  | End => match s with EmptyString => k at_start s | String _ _ => false end
  | Lit p =>
    match strip_prefix p s with
    | Some s' => k (at_start && (String.length p =? 0)%nat) s'
    | None => false
    end
  | Alt r1 r2 => matches r1 at_start s k || matches r2 at_start s k
  | Seq r1 r2 => matches r1 at_start s (fun b s' => matches r2 b s' k)
  end.

Fixpoint search_later (r : regex) (s : string) : bool :=
  match s with
  | EmptyString => false
  | String _ s' => matches r false s' (fun _ _ => true) || search_later r s'
  end.

Definition search (r : regex) (s : string) : bool :=
  matches r true s (fun _ _ => true) || search_later r s.

End Regex.

(** [pattern="^(en|tr)$"] *)
Definition language_pattern : Regex.regex :=
  Regex.Seq Regex.Start (Regex.Seq (Regex.Alt (Regex.Lit "en") (Regex.Lit "tr")) Regex.End).

(** The JSON body of a request, its fields decoded to their declared types;
    [None] is an omitted field. *)
Record Body : Type := {
  body_topic : option string;
  body_card_type : option string;
  body_count : option Z;
  body_language : option string
}.

Inductive error_type : Type :=
| missing
| greater_than_equal
| less_than_equal
| string_pattern_mismatch.

(** A validation error: the field and what is wrong with it. *)
Definition validation_error : Type := (string * error_type)%type.

Definition validated (A : Type) : Type := (list validation_error + A)%type.

(** [topic: str] and [card_type: str]: required. *)
Definition required (loc : string) (v : option string) : validated string :=
  match v with
  | Some x => inr x
  | None => inl [(loc, missing)]
  end.

(** [count: int = Field(default=5, ge=1, le=10)] *)
Definition validate_count (v : option Z) : validated Z :=
  match v with
  | None => inr 5
  | Some n =>
    if (n <? 1)%Z then inl [("count", greater_than_equal)]
    else if (10 <? n)%Z then inl [("count", less_than_equal)]
    else inr n
  end.

(** [language: str = Field(default="en", pattern="^(en|tr)$")] *)
Definition validate_language (v : option string) : validated string :=
  match v with
  | None => inr "en"
  | Some l =>
    if Regex.search language_pattern l then inr l
    else inl [("language", string_pattern_mismatch)]
  end.

Definition errors_of {A : Type} (v : validated A) : list validation_error :=
  match v with
  | inl errs => errs
  | inr _ => []
  end.

(** Model validation of [FlashcardRequest]: every field is checked, and the
    errors of all of them are reported together. *)
Definition validate (body : Body) : validated FlashcardRequest :=
  let t := required "topic" (body_topic body) in
  let c := required "card_type" (body_card_type body) in
  let n := validate_count (body_count body) in
  let l := validate_language (body_language body) in
  match t, c, n, l with
  | inr t', inr c', inr n', inr l' =>
    inr {| topic := t'; card_type := c'; count := n'; language := l' |}
  | _, _, _, _ => inl (errors_of t ++ errors_of c ++ errors_of n ++ errors_of l)
  end.

(** *** A reference encoder

    Whether [json.dumps(v, allow_nan=False).encode("utf-8")] succeeds.  It
    refuses a [float] that is not finite, a string or a key with a
    surrogate code point, an [int] with more digits than [str] converts,
    and a nesting beyond the recursion limit. *)

(** The value of a [float] literal without its sign, as [m * 10^k]; [None]
    for [NaN], [Infinity] and what is no number. *)
Definition decimal_of_literal (literal : string) : option (Z * Z) :=
  let s0 := match strip_prefix "-" literal with
            | Some r => r
            | None => literal
            end in
  match take_digits s0 with
  | (EmptyString, _) => None
  | (integer, s1) =>
    let '(frac, s2) :=
      match s1 with
      | String a s1' => if Ascii.eqb a "." then take_digits s1' else (EmptyString, s1)
      | EmptyString => (EmptyString, s1)
      end in
    let exponent : option Z :=
      match s2 with
      | EmptyString => Some 0
      | String a s2' =>
        if Ascii.eqb a "e" || Ascii.eqb a "E" then
          let '(negative, s3) :=
            match s2' with
            | String b r => if Ascii.eqb b "-" then (true, r)
                            else if Ascii.eqb b "+" then (false, r)
                            else (false, s2')
            | EmptyString => (false, s2')
            end in
          match take_digits s3 with
          | (EmptyString, _) => None
          | (d, EmptyString) =>
            Some (if negative then - int_of_digits 0 d else int_of_digits 0 d)
          | (_, String _ _) => None
          end
        else None
      end in
    match exponent with
    | Some e => Some (int_of_digits 0 (integer +:+ frac), e - Z.of_nat (String.length frac))
    | None => None
    end
  end.

(** The least magnitude that [float] rounds to infinity: half way between
    the largest double and [2^1024]. *)
Definition float_overflow : Z := 2 ^ 1024 - 2 ^ 970.

(** [float(literal)] is a finite number. *)
Definition is_finite (literal : string) : bool :=
  match decimal_of_literal literal with
  | Some (m, k) =>
    if (0 <=? k)%Z then (m * 10 ^ k <? float_overflow)%Z
    else (m <? float_overflow * 10 ^ (- k))%Z
  | None => false
  end.

(** A surrogate code point, U+D800 to U+DFFF: the byte 237 and then a byte
    from 160 to 191. *)
Fixpoint has_surrogate (s : string) : bool :=
  match s with
  | String a s1 =>
    (N_of_ascii a =? 237)%N
    && match s1 with
       | String b _ => ((160 <=? N_of_ascii b) && (N_of_ascii b <=? 191))%N
       | EmptyString => false
       end
    || has_surrogate s1
  | EmptyString => false
  end.

(** [v] can be encoded, with [depth] levels of lists and dictionaries left. *)
Fixpoint encodable_within (depth : nat) (v : json) : bool :=
  match v with
  | JNull => true
  | JBool _ => true
  | JInt n => (String.length (str_int (Z.abs n)) <=? int_max_str_digits)%nat
  | JFloat literal => is_finite literal
  | JStr s => negb (has_surrogate s)
  | JList items =>
    match depth with
    | O => false
    | S depth' => forallb (encodable_within depth') items
    end
  | JDict items =>
    match depth with
    | O => false
    | S depth' =>
      forallb (fun item => negb (has_surrogate (fst item))
                           && encodable_within depth' (snd item)) items
    end
  end.

Definition encodable (v : json) : bool := encodable_within recursion_limit v.

(** What the client receives. *)
Inductive Response : Type :=
| JSONResponse (status_code : Z) (content : json)
| PlainTextResponse (status_code : Z) (content : string)
| RequestValidationError (errors : list validation_error).

Definition status (r : Response) : Z :=
  match r with
  | JSONResponse status_code _ => status_code
  | PlainTextResponse status_code _ => status_code
  | RequestValidationError _ => 422
  end.

(** The framework's rendering of the handler's outcome.  A returned value
    is encoded, after the handler has returned, with
    [json.dumps(v, allow_nan=False).encode("utf-8")]: when that succeeds
    the value is the body of a 200, when it raises the client gets an
    internal server error.  [encodes v] tells whether it succeeds.  An
    [HTTPException] becomes its status code and its detail, any other
    exception an internal server error. *)
Definition respond (encodes : json -> bool) (r : result json) : Response :=
  match r with
  | Return v =>
    if encodes v then JSONResponse 200 v
    else PlainTextResponse 500 "Internal Server Error"
  | Raise (HTTPException status_code detail) =>
    JSONResponse status_code (JDict [("detail", JStr detail)])
  | Raise _ => PlainTextResponse 500 "Internal Server Error"
  end.

(** [@app.post("/generate")]: the body is validated first; the handler runs
    on a valid request only. *)
Definition post_generate (encodes : json -> bool) (json_loads : string -> result json)
  (client : provider) (body : Body) (tr : list event) : Response * list event :=
  match validate body with
  | inl errors => (RequestValidationError errors, tr)
  | inr req =>
    let '(r, tr') := generate_flashcard json_loads client req tr in
    (respond encodes r, tr')
  end.

(** ** Start-up: the top level of the module *)

(** [load_dotenv()]: the bindings of the [.env] file that have a value are
    added to the environment, those already set there are kept. *)
Definition load_dotenv (dotenv : gmap string (option string))
  (environ : gmap string string) : M (gmap string string) :=
  emit LoadDotenv ;; mret (environ ∪ omap id dotenv).

(** [os.getenv(name)] *)
Definition getenv (environ : gmap string string) (name : string) : M (option string) :=
  emit (Getenv name) ;; mret (environ !! name).

(** The module's globals once it is imported. *)
Record globals : Type := {
  api_key : string;
  client_api_key : string;
  app_routes : list (string * string)
}.

Definition import_app (dotenv : gmap string (option string))
  (environ : gmap string string) : M globals :=
  environ' ← load_dotenv dotenv environ;
  api_key ← getenv environ' "OPENAI_API_KEY";
  match api_key with
  | None => raise (RuntimeError "OPENAI_API_KEY not found in .env file!")
  | Some api_key =>
    emit (NewOpenAI api_key) ;;
    emit NewFastAPI ;;
    emit (AddRoute "POST" "/generate") ;;
    mret {| api_key := api_key; client_api_key := api_key;
            app_routes := [("POST", "/generate")] |}
  end.

(** ** The vocabulary of the specification *)

(** The two card types and the two languages of the request schema. *)
Inductive CardType : Type := flashcard | quiz.
Inductive Language : Type := en | tr.

Definition card_type_name (c : CardType) : string :=
  match c with
  | flashcard => "flashcard"
  | quiz => "quiz"
  end.

Definition language_name (l : Language) : string :=
  match l with
  | en => "en"
  | tr => "tr"
  end.

(** The fixed two-by-two table of system prompts. *)
Definition system_prompt_table (c : CardType) (l : Language) : string :=
  match c, l with
  | flashcard, en => SYSTEM_PROMPT_EN
  | flashcard, tr => SYSTEM_PROMPT_TR
  | quiz, en => QUIZ_SYSTEM_PROMPT_EN
  | quiz, tr => QUIZ_SYSTEM_PROMPT_TR
  end.

(** A user-prompt template: fixed text with holes for the topic and the
    count. *)
Inductive piece : Type :=
| Text (s : string)
| Topic
| Count.

(** Substitution into a template: the topic goes in as it is, the count in
    decimal. *)
Fixpoint render (template : list piece) (topic : string) (count : Z) : string :=
  match template with
  | [] => EmptyString
  | Text s :: rest => s +:+ render rest topic count
  | Topic :: rest => topic +:+ render rest topic count
  | Count :: rest => str_int count +:+ render rest topic count
  end.

(** The JSON example that closes the flashcard templates, around the sample
    question. *)
Definition example_json (sample_question : string) : string :=
  "[{" +:+ dquote +:+ "question" +:+ dquote +:+ ": " +:+ dquote +:+ sample_question
  +:+ dquote +:+ ", " +:+ dquote +:+ "answer" +:+ dquote +:+ ": " +:+ dquote +:+ "..."
  +:+ dquote +:+ "}, ...]".

(** The four user-prompt templates. *)
Definition user_prompt_template (c : CardType) (l : Language) : list piece :=
  match c, l with
  | flashcard, en =>
    [ Text "Create "; Count; Text " flashcards about '"; Topic;
      Text ("'. Return the result as a valid JSON array. "
            +:+ "Each flashcard should have 'question' and 'answer' keys. "
            +:+ "Example: " +:+ example_json "What is ...?") ]
  | quiz, en =>
    [ Text "Create "; Count; Text " multiple-choice questions about '"; Topic;
      Text "'. Return only the valid JSON array as specified." ]
  | flashcard, tr =>
    [ Text "'"; Topic; Text "' konusu hakkında "; Count;
      Text (" adet flashcard oluştur. Sonucu geçerli bir JSON dizisi olarak döndür. "
            +:+ "Her flashcard'da 'question' ve 'answer' anahtarları bulunmalı. "
            +:+ "Örnek: " +:+ example_json "... nedir?") ]
  | quiz, tr =>
    [ Text "'"; Topic; Text "' konusu hakkında "; Count;
      Text " adet çoktan seçmeli soru oluştur. Sadece belirtilen geçerli JSON dizisini döndür." ]
  end.

(** [needle in haystack] *)
Definition substring_of (needle haystack : string) : Prop :=
  exists before after, haystack = before +:+ needle +:+ after.

(** How many holes for the topic a template has. *)
Definition topic_holes (template : list piece) : nat :=
  length (List.filter (fun p => match p with Topic => true | _ => false end) template).

(** The messages the handler sends to the provider for a request. *)
Definition request_messages (req : FlashcardRequest) : list (list (string * string)) :=
  match get_system_prompt (card_type req) (language req) with
  | Return system_prompt =>
    prompt_messages system_prompt
      (get_user_prompt (card_type req) (topic req) (count req) (language req))
  | Raise _ => []
  end.

(** The credential that start-up finds: the one of the environment, or else
    the one of the [.env] file. *)
Definition credential (dotenv : gmap string (option string))
  (environ : gmap string string) : option string :=
  match environ !! "OPENAI_API_KEY" with
  | Some key => Some key
  | None =>
    match dotenv !! "OPENAI_API_KEY" with
    | Some (Some key) => Some key
    | _ => None
    end
  end.

(** How often a trace reads the environment variable [name]. *)
Definition reads_of (name : string) (tr : list event) : nat :=
  length (List.filter (fun ev => match ev with
                                 | Getenv n => String.eqb n name
                                 | _ => false
                                 end) tr).

(** No character of [s] is a space. *)
Fixpoint no_space (s : string) : bool :=
  match s with
  | EmptyString => true
  | String a s' => negb (Ascii.eqb a " ") && no_space s'
  end.

(** ** Sample requests and providers *)

(** A provider that answers every call with one choice whose content is
    [text]. *)
Definition answering (text : string) : provider :=
  fun _ _ =>
    Return {| openai.choices :=
                [ {| openai.message := {| openai.content := Some text |} |} ] |}.

(** [{"topic": "Photosynthesis", "card_type": "flashcard", "count": 3, "language": "en"}] *)
Definition photosynthesis_body : Body :=
  {| body_topic := Some "Photosynthesis"; body_card_type := Some "flashcard";
     body_count := Some 3; body_language := Some "en" |}.

Definition photosynthesis_request : FlashcardRequest :=
  {| topic := "Photosynthesis"; card_type := "flashcard"; count := 3; language := "en" |}.

(** [{"topic": "x", "card_type": "essay", "count": 5}] *)
Definition essay_body : Body :=
  {| body_topic := Some "x"; body_card_type := Some "essay";
     body_count := Some 5; body_language := None |}.

(** [{"foo": "bar"}], with white space around it. *)
Definition foo_bar_text : string :=
  "  {" +:+ dquote +:+ "foo" +:+ dquote +:+ ": " +:+ dquote +:+ "bar" +:+ dquote +:+ "}
".

Definition refusal_text : string := "Sorry, I can't help with that.".




(** A provider that answers every call with the given choices, each one by
    its content. *)
Definition answering_choices (contents : list (option string)) : provider :=
  fun _ _ =>
    Return {| openai.choices :=
                map (fun c => {| openai.message := {| openai.content := c |} |}) contents |}.

(** [n] opening brackets. *)
Fixpoint brackets (n : nat) : string :=
  match n with
  | O => EmptyString
  | S n' => String "[" (brackets n')
  end.

(** * Properties *)

(** ** Strings *)

Lemma append_nil (b : string) : EmptyString +:+ b = b.
Proof. reflexivity. Qed.

Lemma append_cons (x : ascii) (a b : string) : String x a +:+ b = String x (a +:+ b).
Proof. reflexivity. Qed.

Lemma append_assoc (a b c : string) : (a +:+ b) +:+ c = a +:+ (b +:+ c).
Proof.
  induction a as [|x a IH]; [reflexivity|].
  rewrite !append_cons. now rewrite IH.
Qed.

Lemma length_append (a b : string) :
  String.length (a +:+ b) = (String.length a + String.length b)%nat.
Proof.
  induction a as [|x a IH]; [reflexivity|].
  rewrite append_cons. simpl. now rewrite IH.
Qed.

Lemma substring_of_append_l (needle s t : string) :
  substring_of needle t -> substring_of needle (s +:+ t).
Proof.
  intros (before & after & ->). exists (s +:+ before), after.
  now rewrite append_assoc.
Qed.

(** A template with a hole for the topic renders to a string that has the
    topic in it. *)
Lemma render_contains_topic (template : list piece) (topic : string) (count : Z) :
  In Topic template -> substring_of topic (render template topic count).
Proof.
  induction template as [|p rest IH]; simpl; [tauto|].
  intros [-> | Hin].
  - exists EmptyString, (render rest topic count). reflexivity.
  - destruct p; [apply substring_of_append_l, IH, Hin | | apply substring_of_append_l, IH, Hin].
    exists EmptyString, (render rest topic count). reflexivity.
Qed.

Lemma str_in_card_types (c : string) :
  str_in c ["flashcard"; "quiz"] = true <-> c = "flashcard" \/ c = "quiz".
Proof.
  unfold str_in; simpl. rewrite !orb_true_iff, !String.eqb_eq. intuition discriminate.
Qed.

(** ** Prompt selection *)

(** C4: for each of the four valid (card type, language) pairs,
    [get_system_prompt] returns the entry of the fixed two-by-two table, and
    the four entries of the table are four distinct strings. *)
Theorem get_system_prompt_table :
  (forall (c : CardType) (l : Language),
     get_system_prompt (card_type_name c) (language_name l)
     = Return (system_prompt_table c l))
  /\ NoDup [ system_prompt_table flashcard en; system_prompt_table flashcard tr;
             system_prompt_table quiz en; system_prompt_table quiz tr ].
Proof.
  split.
  - intros [] []; reflexivity.
  - assert (Hne : forall a b : string, String.eqb a b = false -> a <> b)
      by (intros a b H; now apply String.eqb_neq).
    repeat constructor; rewrite ?elem_of_cons, ?elem_of_nil;
      intros H; repeat destruct H as [H | H]; try exact H;
      revert H; apply Hne; vm_compute; reflexivity.
Qed.



(** ** Prompt rendering *)

(** C6: for the four (card type, language) pairs, [get_user_prompt] is the
    substitution of the topic and the count into the pair's fixed template;
    the template has one hole for the topic, filled with the topic as it is,
    so the topic is a substring of the prompt. *)
Theorem get_user_prompt_template (c : CardType) (l : Language) (topic : string) (count : Z) :
  get_user_prompt (card_type_name c) topic count (language_name l)
  = render (user_prompt_template c l) topic count
  /\ topic_holes (user_prompt_template c l) = 1%nat
  /\ substring_of topic (get_user_prompt (card_type_name c) topic count (language_name l)).
Proof.
  assert (Heq : get_user_prompt (card_type_name c) topic count (language_name l)
                = render (user_prompt_template c l) topic count).
  { destruct c, l; unfold get_user_prompt, user_prompt_template, example_json; simpl;
      rewrite ?append_assoc, ?append_cons, ?append_nil; reflexivity. }
  split; [exact Heq|]. split; [destruct c, l; reflexivity|].
  rewrite Heq. apply render_contains_topic.
  destruct c, l; simpl; tauto.
Qed.

(** ** The handler *)

Section HandlerProperties.

Variable encodes : json -> bool.
Variable json_loads : string -> result json.
Variable client : provider.

Ltac run_handler :=
  unfold generate_flashcard, generate_flashcard_try, chat_completions_create,
    try_except, raise, lift, emit, mbind, mret, M_bind, M_ret.

Lemma try_invalid_card_type (req : FlashcardRequest) (tr : list event) :
  str_in (card_type req) ["flashcard"; "quiz"] = false ->
  generate_flashcard_try json_loads client req tr
  = (Raise (HTTPException 400 "Invalid card_type. Use 'flashcard' or 'quiz'."), tr).
Proof. intros H. run_handler. rewrite H. reflexivity. Qed.

Lemma valid_card_type_selects (card_type language : string) :
  str_in card_type ["flashcard"; "quiz"] = true ->
  exists system_prompt, get_system_prompt card_type language = Return system_prompt.
Proof.
  intros H. apply str_in_card_types in H. destruct H as [-> | ->]; eexists; reflexivity.
Qed.

(** What the [try] block does once the provider has answered with a text. *)
Lemma try_answered (req : FlashcardRequest) (tr : list event) (text : string)
  (response : openai.ChatCompletion) (choice : openai.Choice) :
  str_in (card_type req) ["flashcard"; "quiz"] = true ->
  client "gpt-4" (request_messages req) = Return response ->
  first (openai.choices response) = Return choice ->
  openai.content (openai.message choice) = Some text ->
  generate_flashcard_try json_loads client req tr
  = (match json_loads (strip text) with
     | Return v => Return (JDict [("result", v)])
     | Raise (JSONDecodeError _) => Raise (HTTPException 500 "AI did not return valid JSON")
     | Raise e => Raise e
     end, tr ++ [ChatCompletionsCreate "gpt-4" (request_messages req)]).
Proof.
  intros Hvalid Hcall Hfirst Hcontent. revert Hcall. unfold request_messages.
  destruct (valid_card_type_selects _ (language req) Hvalid) as [system_prompt Hsys].
  run_handler. rewrite Hvalid, Hsys. simpl. intros ->. rewrite Hfirst. simpl.
  rewrite Hcontent. simpl.
  destruct (json_loads (strip text)) as [v | []]; reflexivity.
Qed.

(** The [except Exception] clause: a raised exception comes out as a 500
    whose detail is its string form, a returned value comes out as it is. *)
Lemma except_clause (req : FlashcardRequest) (tr : list event) :
  generate_flashcard json_loads client req tr
  = match generate_flashcard_try json_loads client req tr with
    | (Return v, tr') => (Return v, tr')
    | (Raise e, tr') => (Raise (HTTPException 500 (str e)), tr')
    end.
Proof. reflexivity. Qed.

(** On a body that validates, the endpoint is the handler and the rendering
    of its outcome. *)
Lemma post_generate_validated (body : Body) (req : FlashcardRequest) (tr : list event) :
  validate body = inr req ->
  post_generate encodes json_loads client body tr
  = (respond encodes (fst (generate_flashcard json_loads client req tr)),
     snd (generate_flashcard json_loads client req tr)).
Proof.
  intros H. unfold post_generate. rewrite H.
  now destruct (generate_flashcard json_loads client req tr).
Qed.

(** The string form of an [HTTPException] is longer than its detail. *)
Lemma str_HTTPException (status_code : Z) (detail : string) :
  str (HTTPException status_code detail) <> detail.
Proof.
  intros H. apply (f_equal String.length) in H. unfold str in H.
  rewrite !length_append in H. simpl in H. lia.
Qed.

(** C5: a request with an unknown card type leaves the [try] block by the
    400 exception of the card-type check, with no prompt selected and no
    provider call made; a request that passes the check has a card type for
    which [get_system_prompt] returns a prompt, so its [ValueError] branch
    is not taken in the handler. *)
Theorem card_type_checked_before_selection (req : FlashcardRequest) (tr : list event) :
  if str_in (card_type req) ["flashcard"; "quiz"]
  then exists system_prompt,
         get_system_prompt (card_type req) (language req) = Return system_prompt
  else get_system_prompt (card_type req) (language req) = Raise (ValueError "Invalid card_type")
       /\ generate_flashcard_try json_loads client req tr
          = (Raise (HTTPException 400 "Invalid card_type. Use 'flashcard' or 'quiz'."), tr).
Proof.
  destruct (str_in (card_type req) ["flashcard"; "quiz"]) eqn:Hvalid.
  - now apply valid_card_type_selects.
  - split; [|now apply try_invalid_card_type].
    unfold str_in in Hvalid; simpl in Hvalid.
    rewrite !orb_false_iff in Hvalid. destruct Hvalid as (H1 & H2 & _).
    unfold get_system_prompt. now rewrite H1, H2.
Qed.

(** C9: whatever exception the [try] block raises, the handler raises an
    [HTTPException] with status 500 and the exception's string form as its
    detail; so every exception that leaves the handler has status 500; and
    for a caught [HTTPException] the new detail, its status code, a colon
    and its detail, is not its detail.  The 400 of the card-type check is
    such a case. *)
Theorem catch_all_answers_500 (req : FlashcardRequest) (tr : list event) :
  (forall e tr',
     generate_flashcard_try json_loads client req tr = (Raise e, tr') ->
     generate_flashcard json_loads client req tr = (Raise (HTTPException 500 (str e)), tr')
     /\ respond encodes (Raise (HTTPException 500 (str e)))
        = JSONResponse 500 (JDict [("detail", JStr (str e))]))
  /\ (forall e tr',
        generate_flashcard json_loads client req tr = (Raise e, tr') ->
        exists e0, generate_flashcard_try json_loads client req tr = (Raise e0, tr')
                   /\ e = HTTPException 500 (str e0))
  /\ (forall status_code detail,
        str (HTTPException status_code detail) = str_int status_code +:+ ": " +:+ detail
        /\ str (HTTPException status_code detail) <> detail)
  /\ (str_in (card_type req) ["flashcard"; "quiz"] = false ->
      generate_flashcard json_loads client req tr
      = (Raise (HTTPException 500 "400: Invalid card_type. Use 'flashcard' or 'quiz'."), tr)).
Proof.
  repeat split.
  - rewrite except_clause, H. reflexivity.
  - intros e tr'. rewrite except_clause.
    destruct (generate_flashcard_try json_loads client req tr) as [[v | e0] tr0];
      intros [= <- <-]. now exists e0.
  - apply str_HTTPException.
  - intros H. rewrite except_clause, (try_invalid_card_type _ _ H). reflexivity.
Qed.


(** The same request when the stripped text is not JSON: the 500 of the
    [except json.JSONDecodeError] clause is caught by the outer clause. *)
Lemma unparsed_json_outcome (req : FlashcardRequest) (tr : list event)
  (text msg : string) (response : openai.ChatCompletion) (choice : openai.Choice) :
  str_in (card_type req) ["flashcard"; "quiz"] = true ->
  client "gpt-4" (request_messages req) = Return response ->
  first (openai.choices response) = Return choice ->
  openai.content (openai.message choice) = Some text ->
  json_loads (strip text) = Raise (JSONDecodeError msg) ->
  generate_flashcard json_loads client req tr
  = (Raise (HTTPException 500 "500: AI did not return valid JSON"),
     tr ++ [ChatCompletionsCreate "gpt-4" (request_messages req)]).
Proof.
  intros Hvalid Hcall Hfirst Hcontent Hjson.
  rewrite except_clause, (try_answered _ _ _ _ _ Hvalid Hcall Hfirst Hcontent), Hjson.
  reflexivity.
Qed.

(** C1: the request [{"topic": "x", "card_type": "essay", "count": 5}] is
    answered with status 500 and the detail
    [400: Invalid card_type. Use 'flashcard' or 'quiz'.], not with status
    400, whatever the provider and the JSON decoder are. *)
Theorem essay_request_answers_500 (tr : list event) :
  post_generate encodes json_loads client essay_body tr
  = (JSONResponse 500
       (JDict [("detail", JStr "400: Invalid card_type. Use 'flashcard' or 'quiz'.")]), tr)
  /\ status (fst (post_generate encodes json_loads client essay_body tr)) <> 400
  /\ fst (post_generate encodes json_loads client essay_body tr)
     <> JSONResponse 400 (JDict [("detail", JStr "Invalid card_type. Use 'flashcard' or 'quiz'.")]).
Proof.
  assert (H : post_generate encodes json_loads client essay_body tr
              = (JSONResponse 500
                   (JDict [("detail", JStr "400: Invalid card_type. Use 'flashcard' or 'quiz'.")]),
                 tr)).
  { rewrite (post_generate_validated essay_body _ tr eq_refl).
    rewrite except_clause, try_invalid_card_type; reflexivity. }
  rewrite H. simpl. repeat split; discriminate.
Qed.

End HandlerProperties.



(** A request for an essay: the 400 of the card-type check comes out as a
    500. *)
Lemma catch_all_answers_500_witness :
  generate_flashcard loads (answering refusal_text)
    {| topic := "x"; card_type := "essay"; count := 5; language := "en" |} []
  = (Raise (HTTPException 500 "400: Invalid card_type. Use 'flashcard' or 'quiz'."), []).
Proof.
  apply (catch_all_answers_500 encodable loads (answering refusal_text)
           {| topic := "x"; card_type := "essay"; count := 5; language := "en" |} []).
  reflexivity.
Defined.

(** C2: on the request of the photosynthesis scenario, when the provider
    answers [Sorry, I can't help with that.], which is not JSON, the
    response has status 500 and the detail
    [500: AI did not return valid JSON]: the fixed message comes out behind
    the status code of the exception that carried it. *)
Theorem refusal_answers_prefixed_detail :
  loads (strip refusal_text) = Raise (JSONDecodeError "Expecting value")
  /\ fst (post_generate encodable loads (answering refusal_text) photosynthesis_body [])
     = JSONResponse 500 (JDict [("detail", JStr "500: AI did not return valid JSON")])
  /\ fst (post_generate encodable loads (answering refusal_text) photosynthesis_body [])
     <> JSONResponse 500 (JDict [("detail", JStr "AI did not return valid JSON")]).
Proof.
  assert (Hloads : loads (strip refusal_text) = Raise (JSONDecodeError "Expecting value"))
    by (vm_compute; reflexivity).
  split; [exact Hloads|].
  rewrite (post_generate_validated encodable loads (answering refusal_text) photosynthesis_body
             photosynthesis_request [] eq_refl).
  rewrite (unparsed_json_outcome loads (answering refusal_text) photosynthesis_request []
             refusal_text "Expecting value" _ _ eq_refl eq_refl eq_refl eq_refl Hloads).
  split; [reflexivity | discriminate].
Qed.

(** ** The validation boundary *)

Lemma strip_prefix_Some (p s r : string) : strip_prefix p s = Some r <-> s = p +:+ r.
Proof.
  revert s; induction p as [|a p IH]; intros s; simpl.
  - rewrite append_nil. split; [now intros [= ->] | now intros ->].
  - rewrite append_cons. destruct s as [|b s]; [split; discriminate|].
    destruct (Ascii.eqb_spec a b) as [<- | Hne].
    + rewrite IH. split; [now intros -> | now intros [= ->]].
    + split; [discriminate | intros [= -> _]; now elim Hne].
Qed.

(** A pattern that begins with [^] is not found past the start of the input. *)
Lemma search_later_anchored (r : Regex.regex) (s : string) :
  Regex.search_later (Regex.Seq Regex.Start r) s = false.
Proof. induction s as [|a s IH]; simpl; [reflexivity | exact IH]. Qed.

(** The pattern of the [language] field is found in ["en"] and in ["tr"] and
    in no other string. *)
Lemma language_pattern_search (l : string) :
  Regex.search language_pattern l = true <-> l = "en" \/ l = "tr".
Proof.
  unfold Regex.search, language_pattern. rewrite search_later_anchored, orb_false_r.
  cbn [Regex.matches andb]. rewrite orb_true_iff. split.
  - intros [H | H]; [left | right]; revert H;
      [destruct (strip_prefix "en" l) as [r|] eqn:Hp
      | destruct (strip_prefix "tr" l) as [r|] eqn:Hp]; try (intros; discriminate);
      apply strip_prefix_Some in Hp; destruct r; try (intros; discriminate);
      intros _; exact Hp.
  - intros [-> | ->]; [left | right]; reflexivity.
Qed.

Section Boundary.

Variable encodes : json -> bool.
Variable json_loads : string -> result json.
Variable client : provider.

(** C7: a body whose count is below 1 or above 10, or whose language is
    neither ["en"] nor ["tr"], fails the validation of [FlashcardRequest]:
    the response is the validation error, and the handler has not run (the
    trace is unchanged, so no provider call was made).  On a body that
    validates, an omitted count is 5 and an omitted language is ["en"], the
    count is in [1, 10] and the language is ["en"] or ["tr"]. *)
Theorem boundary_validation (body : Body) (tr : list event) :
  ((exists n, body_count body = Some n /\ (n < 1 \/ 10 < n))
   \/ (exists l, body_language body = Some l /\ l <> "en" /\ l <> "tr") ->
   exists errors,
     errors <> [] /\ validate body = inl errors
     /\ post_generate encodes json_loads client body tr = (RequestValidationError errors, tr))
  /\ (forall req,
        validate body = inr req ->
        count req = default 5 (body_count body)
        /\ language req = default "en" (body_language body)
        /\ 1 <= count req <= 10
        /\ (language req = "en" \/ language req = "tr")).
Proof.
  split.
  - intros Hout.
    assert (Hbad : errors_of (validate_count (body_count body)) <> []
                   \/ errors_of (validate_language (body_language body)) <> []).
    { destruct Hout as [(n & -> & Hn) | (l & -> & Hen & Htr)]; [left | right]; simpl.
      - destruct (Z.ltb_spec n 1); [discriminate|].
        destruct (Z.ltb_spec 10 n); [discriminate | lia].
      - destruct (Regex.search language_pattern l) eqn:Hs; [|discriminate].
        apply language_pattern_search in Hs. tauto. }
    unfold post_generate, validate.
    destruct (required "topic" (body_topic body)) as [e1 | t] eqn:Ht;
      destruct (required "card_type" (body_card_type body)) as [e2 | c] eqn:Hc;
      destruct (validate_count (body_count body)) as [e3 | n];
      destruct (validate_language (body_language body)) as [e4 | l];
      simpl in Hbad; try (exfalso; tauto);
      (eexists; split; [|split; reflexivity]);
      unfold required in Ht, Hc;
      destruct (body_topic body); destruct (body_card_type body);
      simplify_eq; simpl;
      try discriminate;
      destruct Hbad as [Hbad | Hbad]; intros Hnil;
      repeat (apply app_eq_nil in Hnil; destruct Hnil as [? Hnil]); subst; tauto.
  - intros req. unfold validate.
    destruct (required "topic" (body_topic body)) as [e1 | t];
      destruct (required "card_type" (body_card_type body)) as [e2 | c];
      destruct (validate_count (body_count body)) as [e3 | n] eqn:Hn;
      destruct (validate_language (body_language body)) as [e4 | l] eqn:Hl;
      try discriminate.
    intros [= <-]. simpl.
    unfold validate_count in Hn. unfold validate_language in Hl.
    destruct (body_count body) as [n0|]; destruct (body_language body) as [l0|]; simpl.
    all: try (destruct (Z.ltb_spec n0 1); [discriminate|];
              destruct (Z.ltb_spec 10 n0); [discriminate|]).
    all: try (destruct (Regex.search language_pattern l0) eqn:Hs; [|discriminate];
              apply language_pattern_search in Hs).
    all: simplify_eq; repeat split; try lia; auto.
Qed.

End Boundary.

(** A count of 11 with the language ["de"] is refused at the boundary; a
    body with neither count nor language gets 5 and ["en"]. *)
Lemma boundary_validation_witness :
  post_generate encodable loads (answering foo_bar_text)
    {| body_topic := Some "x"; body_card_type := Some "quiz";
       body_count := Some 11; body_language := Some "de" |} []
  = (RequestValidationError
       [("count", less_than_equal); ("language", string_pattern_mismatch)], [])
  /\ validate {| body_topic := Some "x"; body_card_type := Some "quiz";
                 body_count := None; body_language := None |}
     = inr {| topic := "x"; card_type := "quiz"; count := 5; language := "en" |}.
Proof.
  split.
  - destruct (proj1 (boundary_validation encodable loads (answering foo_bar_text)
                       {| body_topic := Some "x"; body_card_type := Some "quiz";
                          body_count := Some 11; body_language := Some "de" |} []))
      as (errors & _ & Hv & Hr).
    + left. exists 11. split; [reflexivity | lia].
    + rewrite Hr. injection Hv as <-. reflexivity.
  - reflexivity.
Defined.

(** ** Start-up *)

(** The variable that [os.getenv] finds after [load_dotenv] is the
    credential of the environment or else that of the [.env] file. *)
Lemma lookup_after_load_dotenv (dotenv : gmap string (option string))
  (environ : gmap string string) :
  (environ ∪ omap id dotenv) !! "OPENAI_API_KEY" = credential dotenv environ.
Proof.
  unfold credential. rewrite lookup_union, lookup_omap.
  destruct (environ !! "OPENAI_API_KEY") as [key|];
    destruct (dotenv !! "OPENAI_API_KEY") as [[key'|]|]; reflexivity.
Qed.

(** Start-up, by the credential it finds. *)
Lemma import_app_run (dotenv : gmap string (option string)) (environ : gmap string string) :
  import_app dotenv environ []
  = match credential dotenv environ with
    | None =>
      (Raise (RuntimeError "OPENAI_API_KEY not found in .env file!"),
       [LoadDotenv; Getenv "OPENAI_API_KEY"])
    | Some key =>
      (Return {| api_key := key; client_api_key := key;
                 app_routes := [("POST", "/generate")] |},
       [LoadDotenv; Getenv "OPENAI_API_KEY"; NewOpenAI key; NewFastAPI;
        AddRoute "POST" "/generate"])
    end.
Proof.
  unfold import_app, load_dotenv, getenv, emit, raise, mbind, mret, M_bind, M_ret.
  simpl. rewrite lookup_after_load_dotenv.
  destruct (credential dotenv environ); reflexivity.
Qed.

(** C8: start-up reads the variable [OPENAI_API_KEY] once, whether it is
    set or not.  When neither the environment nor the [.env] file has the
    credential, the import raises the [RuntimeError] right after that read:
    no client and no application have been constructed, and no route
    registered.  When the credential is there, the client is constructed
    with it, then the application. *)
Theorem startup_needs_credential (dotenv : gmap string (option string))
  (environ : gmap string string) :
  reads_of "OPENAI_API_KEY" (snd (import_app dotenv environ [])) = 1%nat
  /\ (credential dotenv environ = None ->
      import_app dotenv environ []
      = (Raise (RuntimeError "OPENAI_API_KEY not found in .env file!"),
         [LoadDotenv; Getenv "OPENAI_API_KEY"])
      /\ (NewFastAPI ∉ snd (import_app dotenv environ []))
      /\ (forall key, NewOpenAI key ∉ snd (import_app dotenv environ [])))
  /\ (forall key,
        credential dotenv environ = Some key ->
        import_app dotenv environ []
        = (Return {| api_key := key; client_api_key := key;
                     app_routes := [("POST", "/generate")] |},
           [LoadDotenv; Getenv "OPENAI_API_KEY"; NewOpenAI key; NewFastAPI;
            AddRoute "POST" "/generate"])).
Proof.
  rewrite import_app_run. split; [|split].
  - destruct (credential dotenv environ); reflexivity.
  - intros ->. split; [reflexivity|]. simpl.
    split; [|intros key]; rewrite !elem_of_cons, elem_of_nil; intros H;
      repeat destruct H as [H | H]; try discriminate; exact H.
  - intros key ->. reflexivity.
Qed.

(** Start-up with a [.env] file that names the variable without a value,
    and start-up with the variable set in both places. *)
Lemma startup_needs_credential_witness :
  import_app {[ "OPENAI_API_KEY" := None ]} {[ "HOME" := "/root" ]} []
  = (Raise (RuntimeError "OPENAI_API_KEY not found in .env file!"),
     [LoadDotenv; Getenv "OPENAI_API_KEY"])
  /\ import_app {[ "OPENAI_API_KEY" := Some "from-file" ]}
       {[ "OPENAI_API_KEY" := "from-env" ]} []
     = (Return {| api_key := "from-env"; client_api_key := "from-env";
                  app_routes := [("POST", "/generate")] |},
        [LoadDotenv; Getenv "OPENAI_API_KEY"; NewOpenAI "from-env"; NewFastAPI;
         AddRoute "POST" "/generate"]).
Proof.
  split.
  - apply (startup_needs_credential {[ "OPENAI_API_KEY" := None ]} {[ "HOME" := "/root" ]}).
    vm_compute. reflexivity.
  - apply (startup_needs_credential {[ "OPENAI_API_KEY" := Some "from-file" ]}
             {[ "OPENAI_API_KEY" := "from-env" ]}).
    vm_compute. reflexivity.
Defined.

(** * Further properties of the handler *)

Section HandlerPaths.

Variable encodes : json -> bool.
Variable json_loads : string -> result json.
Variable client : provider.

(** The [try] block on a request with a known card type: one provider
    call, then the first choice, its content, the decoder. *)
Lemma try_known_card_type (req : FlashcardRequest) (tr : list event) :
  str_in (card_type req) ["flashcard"; "quiz"] = true ->
  generate_flashcard_try json_loads client req tr
  = (match client "gpt-4" (request_messages req) with
     | Raise e => Raise e
     | Return response =>
       match first (openai.choices response) with
       | Raise e => Raise e
       | Return choice =>
         match content_strip (openai.content (openai.message choice)) with
         | Raise e => Raise e
         | Return result_text =>
           match json_loads result_text with
           | Return v => Return (JDict [("result", v)])
           | Raise (JSONDecodeError _) =>
             Raise (HTTPException 500 "AI did not return valid JSON")
           | Raise e => Raise e
           end
         end
       end
     end, tr ++ [ChatCompletionsCreate "gpt-4" (request_messages req)]).
Proof.
  intros Hvalid. unfold request_messages.
  destruct (valid_card_type_selects _ (language req) Hvalid) as [system_prompt Hsys].
  unfold generate_flashcard_try, chat_completions_create, try_except, raise, lift, emit,
    mbind, mret, M_bind, M_ret.
  rewrite Hvalid, Hsys. simpl.
  destruct (client "gpt-4" _) as [response | e]; [|reflexivity].
  destruct (first (openai.choices response)) as [choice | e]; [|reflexivity].
  destruct (content_strip _) as [result_text | e]; [|reflexivity].
  destruct (json_loads result_text) as [v | []]; reflexivity.
Qed.

(** X1: a request makes at most one provider call.  The handler calls the
    provider once, with the model [gpt-4] and the two prompt messages, when
    the card type is known, and not at all when it is not; whatever the
    provider answers or raises, and whatever the decoder says, there is no
    second call.  The events recorded before the request are kept. *)
Theorem one_provider_call (req : FlashcardRequest) (tr : list event) :
  snd (generate_flashcard json_loads client req tr)
  = tr ++ (if str_in (card_type req) ["flashcard"; "quiz"]
           then [ChatCompletionsCreate "gpt-4" (request_messages req)]
           else []).
Proof.
  rewrite except_clause.
  destruct (str_in (card_type req) ["flashcard"; "quiz"]) eqn:Hvalid.
  - rewrite (try_known_card_type _ _ Hvalid).
    destruct (client "gpt-4" _) as [response | e]; [|reflexivity].
    destruct (first (openai.choices response)) as [choice | e]; [|reflexivity].
    destruct (content_strip _) as [result_text | e]; [|reflexivity].
    destruct (json_loads result_text) as [v | []]; reflexivity.
  - rewrite (try_invalid_card_type _ _ _ _ Hvalid). simpl. now rewrite app_nil_r.
Qed.



(** X4: an answer without choices, and an answer whose first choice has no
    content, are answered with status 500; the detail is the message of the
    [IndexError] of [choices[0]], respectively of the [AttributeError] of
    [content.strip()].  The decoder is not reached. *)
Theorem empty_answer (body : Body) (req : FlashcardRequest) (tr : list event)
  (response : openai.ChatCompletion) :
  validate body = inr req ->
  str_in (card_type req) ["flashcard"; "quiz"] = true ->
  client "gpt-4" (request_messages req) = Return response ->
  (openai.choices response = [] ->
   fst (post_generate encodes json_loads client body tr)
   = JSONResponse 500 (JDict [("detail", JStr "list index out of range")]))
  /\ (forall choice rest,
        openai.choices response = choice :: rest ->
        openai.content (openai.message choice) = None ->
        fst (post_generate encodes json_loads client body tr)
        = JSONResponse 500
            (JDict [("detail", JStr "'NoneType' object has no attribute 'strip'")])).
Proof.
  intros Hbody Hvalid Hcall.
  rewrite (post_generate_validated _ _ _ _ _ _ Hbody), except_clause.
  rewrite (try_known_card_type _ _ Hvalid), Hcall.
  split.
  - intros ->. reflexivity.
  - intros choice rest -> Hnone. simpl. rewrite Hnone. reflexivity.
Qed.

(** X5: only a [JSONDecodeError] gets the fixed message.  When the decoder
    raises any other exception on the stripped text, the response has status
    500 and that exception's message as the detail. *)
Theorem other_decoder_failure (body : Body) (req : FlashcardRequest) (tr : list event)
  (text : string) (response : openai.ChatCompletion) (choice : openai.Choice) (e : exn) :
  validate body = inr req ->
  str_in (card_type req) ["flashcard"; "quiz"] = true ->
  client "gpt-4" (request_messages req) = Return response ->
  first (openai.choices response) = Return choice ->
  openai.content (openai.message choice) = Some text ->
  json_loads (strip text) = Raise e ->
  (forall msg, e <> JSONDecodeError msg) ->
  fst (post_generate encodes json_loads client body tr)
  = JSONResponse 500 (JDict [("detail", JStr (str e))]).
Proof.
  intros Hbody Hvalid Hcall Hfirst Hcontent Hjson Hother.
  rewrite (post_generate_validated _ _ _ _ _ _ Hbody), except_clause.
  rewrite (try_answered _ _ _ _ _ _ _ Hvalid Hcall Hfirst Hcontent), Hjson.
  destruct e; try reflexivity. now elim (Hother msg).
Qed.

End HandlerPaths.


(** No choice at all, and one choice without content. *)
Lemma empty_answer_witness :
  fst (post_generate encodable loads (answering_choices []) photosynthesis_body [])
  = JSONResponse 500 (JDict [("detail", JStr "list index out of range")])
  /\ fst (post_generate encodable loads (answering_choices [None]) photosynthesis_body [])
     = JSONResponse 500 (JDict [("detail", JStr "'NoneType' object has no attribute 'strip'")]).
Proof.
  split.
  - exact (proj1 (empty_answer encodable loads (answering_choices []) photosynthesis_body
                    photosynthesis_request [] _ eq_refl eq_refl eq_refl) eq_refl).
  - exact (proj2 (empty_answer encodable loads (answering_choices [None]) photosynthesis_body
                    photosynthesis_request [] _ eq_refl eq_refl eq_refl) _ _ eq_refl eq_refl).
Defined.

(** An answer of 1001 opening brackets: the reference decoder gives up with
    a [RecursionError], and its message is the detail. *)
Lemma other_decoder_failure_witness :
  fst (post_generate encodable loads (answering (brackets 1001)) photosynthesis_body [])
  = JSONResponse 500
      (JDict [("detail",
               JStr "maximum recursion depth exceeded while decoding a JSON array from a unicode string")]).
Proof.
  assert (Hjson : loads (strip (brackets 1001))
                  = Raise (RecursionError "maximum recursion depth exceeded while decoding a JSON array from a unicode string"))
    by (vm_compute; reflexivity).
  exact (other_decoder_failure encodable loads (answering (brackets 1001)) photosynthesis_body
           photosynthesis_request [] (brackets 1001) _ _ _
           eq_refl eq_refl eq_refl eq_refl eq_refl Hjson
           ltac:(intros msg; discriminate)).
Defined.

(** * Further properties of the boundary *)

(** X6: what the validation of [FlashcardRequest] accepts.  A body
    validates to a request exactly when the topic and the card type are
    present, the count is omitted (then 5) or in [1, 10], and the language
    is omitted (then ["en"]) or one of ["en"] and ["tr"].  Nothing else is
    asked: any topic, the empty one too, and any card type pass. *)
Theorem validate_accepts (body : Body) (req : FlashcardRequest) :
  validate body = inr req
  <-> body_topic body = Some (topic req)
      /\ body_card_type body = Some (card_type req)
      /\ (body_count body = None /\ count req = 5
          \/ body_count body = Some (count req) /\ 1 <= count req <= 10)
      /\ (body_language body = None /\ language req = "en"
          \/ body_language body = Some (language req)
             /\ (language req = "en" \/ language req = "tr")).
Proof.
  destruct body as [bt bc bn bl], req as [t c n l]. unfold validate. simpl. split.
  - destruct bt as [t0|], bc as [c0|]; simpl; try discriminate.
    destruct (validate_count bn) as [e3 | n0] eqn:Hn;
      destruct (validate_language bl) as [e4 | l0] eqn:Hl; try discriminate.
    intros [= -> -> -> ->]. repeat split.
    + unfold validate_count in Hn. destruct bn as [n1|]; [|left; now injection Hn].
      destruct (Z.ltb_spec n1 1); [discriminate|].
      destruct (Z.ltb_spec 10 n1); [discriminate|].
      injection Hn as ->. right. split; [reflexivity | lia].
    + unfold validate_language in Hl. destruct bl as [l1|]; [|left; now injection Hl].
      destruct (Regex.search language_pattern l1) eqn:Hs; [|discriminate].
      injection Hl as ->. apply language_pattern_search in Hs. now right.
  - intros (-> & -> & Hn & Hl). simpl.
    assert (Hn' : validate_count bn = inr n).
    { destruct Hn as [[-> ->] | [-> Hn]]; [reflexivity|]. unfold validate_count.
      destruct (Z.ltb_spec n 1); [lia|]. destruct (Z.ltb_spec 10 n); [lia | reflexivity]. }
    assert (Hl' : validate_language bl = inr l).
    { destruct Hl as [[-> ->] | [-> Hl]]; [reflexivity|]. unfold validate_language.
      apply language_pattern_search in Hl. now rewrite Hl. }
    now rewrite Hn', Hl'.
Qed.

(** X7: the card type is not checked at the boundary: a body with an unknown
    card type that is otherwise valid reaches the handler, which refuses it
    without calling the provider. *)
Theorem unknown_card_type_reaches_handler (encodes : json -> bool)
  (json_loads : string -> result json)
  (client : provider) (body : Body) (req : FlashcardRequest) (tr : list event) :
  validate body = inr req ->
  str_in (card_type req) ["flashcard"; "quiz"] = false ->
  post_generate encodes json_loads client body tr
  = (JSONResponse 500
       (JDict [("detail", JStr "400: Invalid card_type. Use 'flashcard' or 'quiz'.")]), tr).
Proof.
  intros Hbody Hunknown.
  rewrite (post_generate_validated _ _ _ _ _ _ Hbody), except_clause.
  rewrite (try_invalid_card_type _ _ _ _ Hunknown). reflexivity.
Qed.

(** An empty card type, with an empty topic, passes the boundary and is
    refused by the handler. *)
Lemma unknown_card_type_reaches_handler_witness :
  post_generate encodable loads (answering foo_bar_text)
    {| body_topic := Some EmptyString; body_card_type := Some EmptyString;
       body_count := Some 10; body_language := Some "tr" |} []
  = (JSONResponse 500
       (JDict [("detail", JStr "400: Invalid card_type. Use 'flashcard' or 'quiz'.")]), []).
Proof.
  exact (unknown_card_type_reaches_handler encodable loads (answering foo_bar_text)
           {| body_topic := Some EmptyString; body_card_type := Some EmptyString;
              body_count := Some 10; body_language := Some "tr" |}
           {| topic := EmptyString; card_type := EmptyString; count := 10; language := "tr" |}
           [] eq_refl eq_refl).
Defined.

(** The fields of a validated request: the count and the language of the
    body or their defaults, within the bounds of the schema. *)
Lemma validate_fields (body : Body) (req : FlashcardRequest) :
  validate body = inr req ->
  count req = default 5 (body_count body)
  /\ 1 <= count req <= 10
  /\ (language req = "en" \/ language req = "tr").
Proof.
  unfold validate.
  destruct (required "topic" (body_topic body)) as [e1 | t];
    destruct (required "card_type" (body_card_type body)) as [e2 | c];
    destruct (validate_count (body_count body)) as [e3 | n] eqn:Hn;
    destruct (validate_language (body_language body)) as [e4 | l] eqn:Hl;
    try discriminate.
  intros [= <-]. simpl.
  unfold validate_count in Hn. unfold validate_language in Hl.
  destruct (body_count body) as [n0|]; destruct (body_language body) as [l0|]; simpl.
  all: try (destruct (Z.ltb_spec n0 1); [discriminate|];
            destruct (Z.ltb_spec 10 n0); [discriminate|]).
  all: try (destruct (Regex.search language_pattern l0) eqn:Hs; [|discriminate];
            apply language_pattern_search in Hs).
  all: simplify_eq; repeat split; try lia; auto.
Qed.

(** [get_user_prompt] on the four pairs, as a rendering of the pair's
    template. *)
Lemma get_user_prompt_render (c : CardType) (l : Language) (topic : string) (count : Z) :
  get_user_prompt (card_type_name c) topic count (language_name l)
  = render (user_prompt_template c l) topic count.
Proof.
  destruct c, l; unfold get_user_prompt, user_prompt_template, example_json; simpl;
    rewrite ?append_assoc, ?append_cons, ?append_nil; reflexivity.
Qed.

(** X8: from the body to the provider.  When a body validates and its card
    type is one of the two, its language is one of the two as well, and the
    endpoint makes exactly one provider call: model [gpt-4], a system
    message with the table's prompt for that pair, then a user message with
    the pair's template filled with the topic and the count of the body (5
    when the body has no count). *)
Theorem body_to_provider_call (encodes : json -> bool)
  (json_loads : string -> result json) (client : provider)
  (body : Body) (req : FlashcardRequest) (c : CardType) (trace : list event) :
  validate body = inr req ->
  card_type req = card_type_name c ->
  exists l : Language,
    language req = language_name l
    /\ snd (post_generate encodes json_loads client body trace)
       = trace ++ [ChatCompletionsCreate "gpt-4"
                  [ [("role", "system"); ("content", system_prompt_table c l)];
                    [("role", "user");
                     ("content", render (user_prompt_template c l) (topic req)
                                   (default 5 (body_count body)))] ]].
Proof.
  intros Hbody Hc.
  assert (Hl : exists l, language req = language_name l).
  { apply validate_fields in Hbody. destruct Hbody as (_ & _ & [-> | ->]);
      [now exists en | now exists tr]. }
  destruct Hl as [l Hl]. exists l. split; [exact Hl|].
  assert (Hn : count req = default 5 (body_count body))
    by (now apply validate_fields in Hbody).
  rewrite (post_generate_validated _ _ _ _ _ _ Hbody), except_clause.
  assert (Hvalid : str_in (card_type req) ["flashcard"; "quiz"] = true)
    by (rewrite Hc; destruct c; reflexivity).
  rewrite (try_known_card_type _ _ _ _ Hvalid).
  assert (Hm : request_messages req
               = prompt_messages (system_prompt_table c l)
                   (render (user_prompt_template c l) (topic req)
                      (default 5 (body_count body)))).
  { unfold request_messages. rewrite Hc, Hl, <- Hn, get_user_prompt_render.
    destruct c, l; reflexivity. }
  rewrite Hm.
  destruct (client "gpt-4" _) as [response | e]; [|reflexivity].
  destruct (first (openai.choices response)) as [choice | e]; [|reflexivity].
  destruct (content_strip _) as [result_text | e]; [|reflexivity].
  destruct (json_loads result_text) as [v | []]; reflexivity.
Qed.

(** * Further properties of the prompts *)

(** ** The decimal form of the count *)

Lemma no_space_digits (d : Decimal.uint) : no_space (NilEmpty.string_of_uint d) = true.
Proof. induction d; simpl; auto. Qed.

(** [str(n)] has digits and at most a sign: no space. *)
Lemma str_int_no_space (n : Z) : no_space (str_int n) = true.
Proof.
  unfold str_int, NilZero.string_of_int, NilZero.string_of_uint.
  destruct (Z.to_int n) as [d | d]; destruct d; simpl; auto using no_space_digits.
Qed.

Lemma to_int_normal (n : Z) : Z.to_int n = Decimal.norm (Z.to_int n).
Proof. rewrite <- (DecimalZ.to_of (Z.to_int n)). now rewrite DecimalZ.of_to. Qed.

Lemma norm_not_nil (d : Decimal.signed_int) :
  Decimal.norm d <> Decimal.Pos Decimal.Nil /\ Decimal.norm d <> Decimal.Neg Decimal.Nil.
Proof.
  destruct d as [d | d]; simpl.
  - split; [|discriminate]. intros [= H]. now apply unorm_nonnil in H.
  - destruct (Decimal.nzhead d) eqn:Hd; split; discriminate.
Qed.

(** Reading [str(n)] back gives [n]. *)
Lemma int_of_str_int (n : Z) :
  option_map Z.of_int (NilZero.int_of_string (str_int n)) = Some n.
Proof.
  unfold str_int. destruct (norm_not_nil (Z.to_int n)) as [Hp Hn].
  rewrite <- to_int_normal in Hp, Hn.
  rewrite (NilZero.isi _ Hp Hn). simpl. now rewrite DecimalZ.of_to.
Qed.

Lemma str_int_inj (n1 n2 : Z) : str_int n1 = str_int n2 -> n1 = n2.
Proof.
  intros H. pose proof (int_of_str_int n1) as H1. rewrite H, int_of_str_int in H1.
  now injection H1.
Qed.

(** ** Cutting a string at a space *)

Lemma append_inj_l (a b c : string) : a +:+ b = a +:+ c -> b = c.
Proof.
  induction a as [|x a IH]; [trivial|]. rewrite !append_cons. intros [= H]. auto.
Qed.

Lemma append_inj_r (a b c : string) : a +:+ c = b +:+ c -> a = b.
Proof.
  revert b; induction a as [|x a IH]; intros [|y b] H.
  - reflexivity.
  - apply (f_equal String.length) in H. rewrite append_nil, length_append in H.
    simpl in H. lia.
  - apply (f_equal String.length) in H. rewrite append_nil, length_append in H.
    simpl in H. lia.
  - rewrite !append_cons in H. injection H as -> H. f_equal. auto.
Qed.

Lemma no_space_append_space (u v : string) : no_space (u +:+ String " " v) = false.
Proof.
  induction u as [|x u IH]; [reflexivity|].
  rewrite append_cons. simpl. rewrite IH. apply andb_false_r.
Qed.

Lemma no_space_cons (x : ascii) (a : string) :
  no_space (String x a) = true -> x <> " "%char /\ no_space a = true.
Proof.
  simpl. rewrite andb_true_iff, negb_true_iff. intros [Hx Ha]. split; [|exact Ha].
  now apply Ascii.eqb_neq.
Qed.

(** Two space-free words, each followed by a space: the words are equal and
    so is what follows. *)
Lemma cut_after_word (a b x y : string) :
  no_space a = true -> no_space b = true ->
  a +:+ String " " x = b +:+ String " " y -> a = b /\ x = y.
Proof.
  revert b; induction a as [|c a IH]; intros [|d b] Ha Hb; rewrite ?append_cons, ?append_nil.
  - now intros [= ->].
  - intros [= <- _]. now apply no_space_cons in Hb.
  - intros [= -> _]. now apply no_space_cons in Ha.
  - intros [= -> H]. apply no_space_cons in Ha, Hb.
    destruct (IH b) as [-> ->]; tauto.
Qed.

(** Two space-free words, each behind a space: the words are equal and so
    is what comes before. *)
Lemma cut_before_word (a b x y : string) :
  no_space a = true -> no_space b = true ->
  x +:+ String " " a = y +:+ String " " b -> x = y /\ a = b.
Proof.
  intros Ha Hb. revert y; induction x as [|c x IH]; intros [|d y];
    rewrite ?append_cons, ?append_nil.
  - now intros [= ->].
  - intros [= <- ->]. now rewrite no_space_append_space in Ha.
  - intros [= -> <-]. now rewrite no_space_append_space in Hb.
  - intros [= -> H]. destruct (IH y H) as [-> ->]. tauto.
Qed.

(** The shape of the English templates: the count, then the topic. *)
Lemma count_then_topic (p m tail c1 c2 t1 t2 : string) :
  no_space c1 = true -> no_space c2 = true ->
  p +:+ c1 +:+ String " " m +:+ t1 +:+ tail = p +:+ c2 +:+ String " " m +:+ t2 +:+ tail ->
  c1 = c2 /\ t1 = t2.
Proof.
  intros H1 H2 H. apply append_inj_l in H.
  rewrite !append_cons in H. apply cut_after_word in H; [|assumption..].
  destruct H as [-> H]. split; [reflexivity|].
  apply append_inj_l in H. now apply append_inj_r in H.
Qed.

(** The shape of the Turkish templates: the topic, then the count. *)
Lemma topic_then_count (p m m' tail tail' c1 c2 t1 t2 : string) :
  m = m' +:+ " " -> tail = String " " tail' ->
  no_space c1 = true -> no_space c2 = true ->
  p +:+ t1 +:+ m +:+ c1 +:+ tail = p +:+ t2 +:+ m +:+ c2 +:+ tail ->
  t1 = t2 /\ c1 = c2.
Proof.
  intros -> -> H1 H2 H. apply append_inj_l in H.
  assert (Hshape : forall t c,
             t +:+ (m' +:+ " ") +:+ c +:+ String " " tail'
             = ((t +:+ m') +:+ String " " c) +:+ String " " tail').
  { intros t c. rewrite !append_assoc, !append_cons, append_nil. reflexivity. }
  rewrite !Hshape in H. apply append_inj_r in H.
  apply cut_before_word in H; [|assumption..].
  destruct H as [H ->]. split; [|reflexivity]. now apply append_inj_r in H.
Qed.

(** X9: the user prompt tells the requests apart.  For any card type and
    any language, two requests that differ in the topic or in the count get
    different user prompts: the topic is taken as it is and the count is
    written in decimal, and the fixed text around them keeps them apart. *)
Theorem get_user_prompt_distinguishes (card_type language : string)
  (topic1 topic2 : string) (count1 count2 : Z) :
  (topic1, count1) <> (topic2, count2) ->
  get_user_prompt card_type topic1 count1 language
  <> get_user_prompt card_type topic2 count2 language.
Proof.
  intros Hne Heq. apply Hne. clear Hne.
  pose proof (str_int_no_space count1) as H1.
  pose proof (str_int_no_space count2) as H2.
  unfold get_user_prompt in Heq.
  destruct (String.eqb language "tr"), (String.eqb card_type "flashcard").
  - apply (topic_then_count _ _ "' konusu hakkında" _ _ _ _ _ _ eq_refl eq_refl H1 H2) in Heq.
    destruct Heq as [-> Hc]. now apply str_int_inj in Hc as ->.
  - apply (topic_then_count _ _ "' konusu hakkında" _ _ _ _ _ _ eq_refl eq_refl H1 H2) in Heq.
    destruct Heq as [-> Hc]. now apply str_int_inj in Hc as ->.
  - apply (count_then_topic _ _ _ _ _ _ _ H1 H2) in Heq.
    destruct Heq as [Hc ->]. now apply str_int_inj in Hc as ->.
  - apply (count_then_topic _ _ _ _ _ _ _ H1 H2) in Heq.
    destruct Heq as [Hc ->]. now apply str_int_inj in Hc as ->.
Qed.

(** Two requests about Rome, for two and for three questions. *)
Lemma get_user_prompt_distinguishes_witness :
  get_user_prompt "quiz" "Rome" 2 "en" <> get_user_prompt "quiz" "Rome" 3 "en".
Proof.
  apply (get_user_prompt_distinguishes "quiz" "en" "Rome" "Rome" 2 3). discriminate.
Defined.

(** X10: the two prompt functions disagree on an unknown card type.  For a
    card type that is neither ["flashcard"] nor ["quiz"], in any language,
    [get_system_prompt] raises the [ValueError], while [get_user_prompt]
    raises nothing and returns the quiz prompt. *)
Theorem unknown_card_type_prompts (card_type language topic : string) (count : Z) :
  str_in card_type ["flashcard"; "quiz"] = false ->
  get_system_prompt card_type language = Raise (ValueError "Invalid card_type")
  /\ get_user_prompt card_type topic count language
     = get_user_prompt "quiz" topic count language.
Proof.
  unfold str_in; simpl. rewrite !orb_false_iff. intros (H1 & H2 & _).
  unfold get_system_prompt, get_user_prompt. rewrite H1, H2. simpl.
  split; reflexivity.
Qed.

(** An essay in Turkish. *)
Lemma unknown_card_type_prompts_witness :
  get_system_prompt "essay" "tr" = Raise (ValueError "Invalid card_type")
  /\ get_user_prompt "essay" "x" 5 "tr" = get_user_prompt "quiz" "x" 5 "tr".
Proof. exact (unknown_card_type_prompts "essay" "tr" "x" 5 eq_refl). Defined.

(** The photosynthesis request: one call, the English flashcard prompts. *)
Lemma body_to_provider_call_witness :
  exists l : Language,
    language photosynthesis_request = language_name l
    /\ snd (post_generate encodable loads (answering foo_bar_text) photosynthesis_body [])
       = [] ++ [ChatCompletionsCreate "gpt-4"
                  [ [("role", "system"); ("content", system_prompt_table flashcard l)];
                    [("role", "user");
                     ("content", render (user_prompt_template flashcard l)
                                   (topic photosynthesis_request)
                                   (default 5 (body_count photosynthesis_body)))] ]].
Proof.
  exact (body_to_provider_call encodable loads (answering foo_bar_text) photosynthesis_body
           photosynthesis_request flashcard [] eq_refl eq_refl).
Defined.

(** * Further properties of start-up *)

(** X11: where the credential comes from.  A value of [OPENAI_API_KEY] in
    the environment is the credential, whatever the [.env] file says and
    also when it is the empty string: only an unset variable stops start-up.
    When the environment has none, a value in the [.env] file is the
    credential.  The client is constructed with that same value. *)
Theorem credential_source (dotenv : gmap string (option string))
  (environ : gmap string string) (key : string) :
  environ !! "OPENAI_API_KEY" = Some key
  \/ environ !! "OPENAI_API_KEY" = None /\ dotenv !! "OPENAI_API_KEY" = Some (Some key) ->
  import_app dotenv environ []
  = (Return {| api_key := key; client_api_key := key;
               app_routes := [("POST", "/generate")] |},
     [LoadDotenv; Getenv "OPENAI_API_KEY"; NewOpenAI key; NewFastAPI;
      AddRoute "POST" "/generate"]).
Proof.
  intros H. rewrite import_app_run.
  assert (Hc : credential dotenv environ = Some key).
  { unfold credential. destruct H as [-> | [-> ->]]; reflexivity. }
  now rewrite Hc.
Qed.

(** An empty variable in the environment, and another value in the file:
    start-up goes on with the empty credential. *)
Lemma credential_source_witness :
  import_app {[ "OPENAI_API_KEY" := Some "from-file" ]}
    {[ "OPENAI_API_KEY" := EmptyString ]} []
  = (Return {| api_key := EmptyString; client_api_key := EmptyString;
               app_routes := [("POST", "/generate")] |},
     [LoadDotenv; Getenv "OPENAI_API_KEY"; NewOpenAI EmptyString; NewFastAPI;
      AddRoute "POST" "/generate"]).
Proof.
  apply (credential_source {[ "OPENAI_API_KEY" := Some "from-file" ]}
           {[ "OPENAI_API_KEY" := EmptyString ]} EmptyString).
  left. vm_compute. reflexivity.
Defined.

(** * An empty answer *)

(** X12: an answer that is empty once stripped (no text, or white space
    only) is no JSON for the decoder, and is answered like any text that
    does not parse: status 500, the fixed message behind its status code. *)
Theorem blank_answer (encodes : json -> bool) (client : provider) (body : Body)
  (req : FlashcardRequest)
  (tr : list event) (text : string) (response : openai.ChatCompletion)
  (choice : openai.Choice) :
  validate body = inr req ->
  str_in (card_type req) ["flashcard"; "quiz"] = true ->
  client "gpt-4" (request_messages req) = Return response ->
  first (openai.choices response) = Return choice ->
  openai.content (openai.message choice) = Some text ->
  strip text = EmptyString ->
  fst (post_generate encodes loads client body tr)
  = JSONResponse 500 (JDict [("detail", JStr "500: AI did not return valid JSON")]).
Proof.
  intros Hbody Hvalid Hcall Hfirst Hcontent Hblank.
  rewrite (post_generate_validated _ _ _ _ _ _ Hbody).
  rewrite (unparsed_json_outcome loads client req tr text "Expecting value" _ _
             Hvalid Hcall Hfirst Hcontent); [reflexivity|].
  rewrite Hblank. reflexivity.
Qed.

(** Spaces, a tab and a line break. *)
Lemma blank_answer_witness :
  fst (post_generate encodable loads (answering "  	
 ") photosynthesis_body [])
  = JSONResponse 500 (JDict [("detail", JStr "500: AI did not return valid JSON")]).
Proof.
  exact (blank_answer encodable (answering "  	
 ") photosynthesis_body photosynthesis_request [] _ _ _
           eq_refl eq_refl eq_refl eq_refl eq_refl eq_refl).
Defined.
